(** * rmd: render a Markdown document, optionally styled and previewed

    A shallow embedding of [main.go].  The program is one function, [main],
    whose control flow is driven by Go's [defer] / [panic] / [recover]:
    the deferred calls are the interesting part, so the embedding keeps an
    explicit stack of deferred calls and an explicit "panicking" register,
    and runs the stack last-in first-out when the body of [main] ends.

    Everything outside the repository (the operating system, goldmark,
    html/template) is reached through a record of outcomes, [Env], or
    through a small executable model that is marked as such. *)

From Stdlib Require Import Strings.String Strings.Ascii Strings.Byte ZArith Lia.
From stdpp Require Import base option list gmap strings fin_maps.

Local Open Scope string_scope.
Local Open Scope list_scope.

(** ** Go values *)

(** [[]byte]. *)
Abbreviation bytes := (list byte).

#[global] Instance byte_eq_decision : EqDecision byte := Byte.byte_eq_dec.

(** [[]byte(s)] for a Go string [s]. *)
Definition bytes_of (s : string) : bytes := list_byte_of_string s.

(** The double quote, which the string literals of [main.go] contain. *)
Definition dq : string := String (ascii_of_nat 34) EmptyString.

(** A Go [error] coming from the operating system or a library: only its
    text matters to [main], which wraps it with [%w]. *)
Definition error := string.

(** A call that returns [(T, error)]. *)
Inductive result (A : Type) : Type :=
| Ok (a : A)
| Err (e : error).
Arguments Ok {A} a.
Arguments Err {A} e.

(** The [panic] sites of [main], one per failing stage.  The names follow
    the specification's error kinds; the two writes around the converted
    body have no name there. *)
Inductive Stage : Set :=
| InputOpenError      (* main.go:39  *)
| InputReadError      (* main.go:46  *)
| TempDirError        (* main.go:62  *)
| TempFileError       (* main.go:73  *)
| TemplateError       (* main.go:109 *)
| PrefixWriteError    (* main.go:120 *)
| SuffixWriteError    (* main.go:133 *)
| RenderError         (* main.go:140 *)
| LaunchError.        (* main.go:88  *)

#[global] Instance Stage_eq_decision : EqDecision Stage.
Proof. solve_decision. Defined.

(** The value handed to [panic]: [fmt.Errorf(format, ..., err)] at one of
    the sites above.  [subject] is the [%s] argument of main.go:39 and is
    empty elsewhere. *)
Record PanicValue : Set := Errorf {
  stage   : Stage;
  subject : string;
  cause   : error
}.

#[global] Instance PanicValue_eq_decision : EqDecision PanicValue.
Proof. solve_decision. Defined.

(** [v.Error()]: the format strings of [main.go].  The file-creation site
    (main.go:73) uses the text of the directory-creation site (main.go:62). *)
Definition Error (v : PanicValue) : string :=
  match stage v with
  | InputOpenError   => "error opening input file " +:+ subject v +:+ ": " +:+ cause v
  | InputReadError   => "error reading all Markdown content from input: " +:+ cause v
  | TempDirError     => "error creating temp directory: " +:+ cause v
  | TempFileError    => "error creating temp directory: " +:+ cause v
  | TemplateError    => "error parsing html output prefix template: " +:+ cause v
  | PrefixWriteError => "error writing html output prefix data to sink: " +:+ cause v
  | SuffixWriteError => "error writing html output suffix data to sink: " +:+ cause v
  | RenderError      => "error rendering Markdown: " +:+ cause v
  | LaunchError      => "error opening OS's default web page viewer: " +:+ cause v
  end.

(** ** [path] *)

(** [path.Join(dir, name)] for a clean [dir] and a plain [name], which is
    what [os.MkdirTemp] returns and what [main] passes. *)
Definition path_Join (dir name : string) : string := dir +:+ "/" +:+ name.

(** [path.Split]: the directory (without its final slash) and the last
    element of a path; [None] when the path has no slash. *)
Fixpoint path_Split (p : string) : option (string * string) :=
  match p with
  | EmptyString => None
  | String c rest =>
      match path_Split rest with
      | Some (d, f) => Some (String c d, f)
      | None => if Ascii.eqb c "/" then Some (EmptyString, rest) else None
      end
  end.

(** ** html/template, on the fragment [main] uses

    The library is not part of the repository: [Parse] and the rendering
    behind [Execute] are modelled below, for templates made of literal
    text and field actions. *)
Module template.

Inductive item : Set :=
| itemText (s : string)
| itemAction (s : string)
| itemError (msg : string).

(** The scanner: [inAction] tells which side of a delimiter it is on,
    [acc] is the text read since the last delimiter. *)
Fixpoint lex (inAction : bool) (acc : string) (s : string) : list item :=
  match s with
  | EmptyString =>
      if inAction then [itemError "unclosed action"] else [itemText acc]
  | String c rest =>
      match rest with
      | String c' rest' =>
          if negb inAction && Ascii.eqb c "{" && Ascii.eqb c' "{"
          then itemText acc :: lex true EmptyString rest'
          else if inAction && Ascii.eqb c "}" && Ascii.eqb c' "}"
          then itemAction acc :: lex false EmptyString rest'
          else lex inAction (acc +:+ String c EmptyString) rest
      | EmptyString => lex inAction (acc +:+ String c EmptyString) rest
      end
  end.

Definition isAlphaNumeric (c : ascii) : bool :=
  let n := nat_of_ascii c in
  (Nat.eqb n 95)
  || (Nat.leb 48 n && Nat.leb n 57)
  || (Nat.leb 65 n && Nat.leb n 90)
  || (Nat.leb 97 n && Nat.leb n 122).

Fixpoint isIdentifier (s : string) : bool :=
  match s with
  | EmptyString => true
  | String c rest => isAlphaNumeric c && isIdentifier rest
  end.

Inductive Node : Set :=
| TextNode (text : string)
| FieldNode (ident : string).

(** A parsed template: its name and its nodes. *)
Record Template : Set := { Name : string; Tree : list Node }.

Definition parseAction (a : string) : result Node :=
  match a with
  | String "." (String c rest) =>
      if isIdentifier (String c rest) then Ok (FieldNode (String c rest))
      else Err ("unexpected token in action " +:+ a)
  | _ => Err ("unexpected token in action " +:+ a)
  end.

Fixpoint parseItems (l : list item) : result (list Node) :=
  match l with
  | [] => Ok []
  | itemError msg :: _ => Err msg
  | itemText s :: l' =>
      match parseItems l' with
      | Ok ns => Ok (match s with EmptyString => ns | _ => TextNode s :: ns end)
      | Err e => Err e
      end
  | itemAction a :: l' =>
      match parseAction a with
      | Ok n => match parseItems l' with Ok ns => Ok (n :: ns) | Err e => Err e end
      | Err e => Err e
      end
  end.

(** Modelled from the spec: [template.New(name).Parse(text)] of
    html/template, which is not in the repository.  Construction of the
    preamble fails on a malformed template and not on the static one: the
    text is cut at the action delimiters, an action must be a field
    reference, and anything else is reported as a parse error. *)
Definition Parse (name text : string) : result Template :=
  match parseItems (lex false EmptyString text) with
  | Ok ns => Ok {| Name := name; Tree := ns |}
  | Err e => Err ("template: " +:+ name +:+ ": " +:+ e)
  end.

(** [template.CSS]: content the escaper inserts as it is in a style
    context (main.go:112-115). *)
Record CSS : Set := mkCSS { css_text : string }.

(** The anonymous struct of main.go:111-118: one field, [CSS]. *)
Record Data : Set := { data_CSS : CSS }.

Definition evalField (data : Data) (ident : string) : result bytes :=
  if decide (ident = "CSS") then Ok (bytes_of (css_text (data_CSS data)))
  else Err ("can't evaluate field " +:+ ident).

(** Modelled from the spec: what [Execute] of html/template, which is
    not in the repository, writes, and the error that stops it.  Text is
    written as it is and the stylesheet is inserted without escaping; the
    nodes are written one by one, so output before a failing action stays
    written. *)
Fixpoint render (ns : list Node) (data : Data) : bytes * option error :=
  match ns with
  | [] => ([], None)
  | TextNode s :: ns' =>
      let '(out, e) := render ns' data in (bytes_of s ++ out, e)
  | FieldNode f :: ns' =>
      match evalField data f with
      | Ok v => let '(out, e) := render ns' data in (v ++ out, e)
      | Err e => ([], Some e)
      end
  end.

End template.

(** ** goldmark: the configuration [main] builds *)
Module goldmark.

(** [extension.GFM]: tables, strikethrough, linkify and task lists. *)
Inductive Extender : Set := GFM.

(** [html.WithHardWraps()]. *)
Inductive RendererOption : Set := WithHardWraps.

Inductive Option : Set :=
| WithExtensions (es : list Extender)
| WithRendererOptions (ros : list RendererOption).

Record Markdown : Set := {
  extensions : list Extender;
  HardWraps  : bool
}.

Definition apply (md : Markdown) (o : Option) : Markdown :=
  match o with
  | WithExtensions es =>
      {| extensions := extensions md ++ es; HardWraps := HardWraps md |}
  | WithRendererOptions ros =>
      {| extensions := extensions md;
         HardWraps := HardWraps md || existsb (fun _ => true) ros |}
  end.

(** [goldmark.New(opts...)]. *)
Definition New (opts : list Option) : Markdown :=
  fold_left apply opts {| extensions := []; HardWraps := false |}.

End goldmark.

(** ** The world outside the process *)

(** A fault of a write to the sink: the number of bytes that reached the
    sink before the error, and the error. *)
Definition fault := option (nat * error).

(** What the operating system and the libraries answer during one run. *)
Record Env : Type := {
  (** [io.ReadAll(os.Stdin)] *)
  env_stdin   : result bytes;
  (** [os.Open(p)], and what [io.ReadAll] then gets from the file *)
  env_open    : string -> result (result bytes);
  (** the HTML goldmark renders for a source under a configuration *)
  env_render  : goldmark.Markdown -> bytes -> bytes;
  (** the name [os.MkdirTemp("", "rmd")] picks *)
  env_mkdtemp : result string;
  (** [os.Create(tmpOut)] *)
  env_create  : option error;
  (** the sink while the preamble, the body and the closing tags are written *)
  env_prefix  : fault;
  env_convert : fault;
  env_suffix  : fault;
  (** [exec.Command("open", tmpOut).Run()] *)
  env_launch  : option error;
  (** [os.RemoveAll(tmpDir)] *)
  env_remove  : option error
}.

(** A directory: its entries by name. *)
Abbreviation dirent := (gmap string bytes).

Inductive Reader : Set :=
| Stdin
| FileReader (name : string) (content : result bytes).

Inductive Writer : Set :=
| Stdout
| FileWriter (dir name : string).

(** The calls that leave the process, in the order they are made. *)
Inductive Event : Set :=
| EvOpen (p : string)
| EvReadAll (r : Reader)
| EvMkdirTemp (pattern : string)
| EvCreate (p : string)
| EvExecute (w : Writer)
| EvConvert (src : bytes) (w : Writer)
| EvCopy (w : Writer)
| EvWrite (w : Writer) (data : bytes)
| EvCommandRun (name arg : string)
| EvSleep (d : Z)
| EvRemoveAll (p : string)
| EvCloseReader (r : Reader)
| EvCloseWriter (w : Writer)
| EvFprintln (line : string)
| EvPanic (v : PanicValue)
| EvRecover (v : PanicValue).

#[global] Instance result_eq_decision `{EqDecision A} : EqDecision (result A).
Proof. solve_decision. Defined.
#[global] Instance Reader_eq_decision : EqDecision Reader.
Proof. solve_decision. Defined.
#[global] Instance Writer_eq_decision : EqDecision Writer.
Proof. solve_decision. Defined.
#[global] Instance Event_eq_decision : EqDecision Event.
Proof. solve_decision. Defined.

(** The temporary file system (directories by path), what the program
    writes to its two standard streams (the report the runtime prints for
    an uncaught panic is not part of [stderr]: it is the outcome of the
    run), and the log of its calls. *)
Record World : Type := {
  fs     : gmap string dirent;
  stdout : bytes;
  stderr : list string;
  log    : list Event
}.

(** ** The goroutine of [main] *)

(** The five [defer] statements of [main], as closures over the variables
    they capture. *)
Inductive Deferred : Set :=
| DeferCloseReader (f : Reader)        (* main.go:41    *)
| DeferRemoveAll (tmpDir : string)     (* main.go:65-69 *)
| DeferCloseWriter (f : Writer)        (* main.go:76    *)
| DeferPreview (tmpOut : string)       (* main.go:80-93 *)
| DeferSuffix (sink : Writer).         (* main.go:124-135 *)

(** The state a statement runs in: the world, the deferred calls pushed so
    far (last pushed first) and the panic in progress, if any. *)
Record Goroutine : Type := {
  world     : World;
  deferred  : list Deferred;
  panicking : option PanicValue
}.

(** How a statement ends. *)
Inductive Completion (A : Type) : Type :=
| Return (a : A)
| Panic (v : PanicValue).
Arguments Return {A} a.
Arguments Panic {A} v.

Definition Go (A : Type) : Type := Goroutine → Completion A * Goroutine.

#[global] Instance Go_ret : MRet Go := λ A a g, (Return a, g).
#[global] Instance Go_bind : MBind Go := λ A B k m g,
  match m g with
  | (Return a, g') => k a g'
  | (Panic v, g') => (Panic v, g')
  end.

Definition with_world (f : World → World) : Go unit := λ g,
  (Return (), {| world := f (world g); deferred := deferred g; panicking := panicking g |}).

Definition emit (e : Event) : Go unit :=
  with_world (λ w, {| fs := fs w; stdout := stdout w; stderr := stderr w;
                      log := log w ++ [e] |}).

Definition set_fs (f : gmap string dirent → gmap string dirent) : Go unit :=
  with_world (λ w, {| fs := f (fs w); stdout := stdout w; stderr := stderr w;
                      log := log w |}).

Definition get_fs : Go (gmap string dirent) := λ g, (Return (fs (world g)), g).

(** [panic(v)]. *)
Definition panic {A} (v : PanicValue) : Go A := λ g,
  match emit (EvPanic v) g with
  | (_, g') => (Panic v, g')
  end.

(** [recover()]: the panic in progress, which it stops; [nil] without one. *)
Definition recover : Go (option PanicValue) := λ g,
  match panicking g with
  | Some v =>
      match emit (EvRecover v) g with
      | (_, g') => (Return (Some v),
                    {| world := world g'; deferred := deferred g'; panicking := None |})
      end
  | None => (Return None, g)
  end.

(** [defer d]. *)
Definition defer (d : Deferred) : Go unit := λ g,
  (Return (), {| world := world g; deferred := d :: deferred g; panicking := panicking g |}).

(** [w.Write(data)] when the writer takes everything. *)
Definition write (w : Writer) (data : bytes) : Go unit :=
  emit (EvWrite w data);;
  match w with
  | Stdout =>
      with_world (λ x, {| fs := fs x; stdout := stdout x ++ data; stderr := stderr x;
                          log := log x |})
  | FileWriter d n => set_fs (alter (alter (λ c, c ++ data) n) d)
  end.

(** A write under a fault: the bytes before the fault reach the writer. *)
Definition write_under (f : fault) (w : Writer) (data : bytes) : Go (option error) :=
  match f with
  | None => write w data;; mret None
  | Some (n, e) => write w (take n data);; mret (Some e)
  end.

(** [fmt.Fprintln(os.Stderr, line)]. *)
Definition Fprintln_Stderr (line : string) : Go unit :=
  emit (EvFprintln line);;
  with_world (λ x, {| fs := fs x; stdout := stdout x; stderr := stderr x ++ [line];
                      log := log x |}).

(** [time.Second], in nanoseconds. *)
Definition Second : Z := 1000000000.

(** How the process ends: [main] returned, or a panic reached the top. *)
Inductive Outcome : Set :=
| Exit
| Crash (v : PanicValue).

Definition exit_status (o : Outcome) : Z :=
  match o with Exit => 0 | Crash _ => 2 end.

Record Run : Type := { outcome : Outcome; final : World }.

(** The converter of main.go:49-54: GitHub-flavoured Markdown, hard wraps. *)
Definition md : goldmark.Markdown :=
  goldmark.New
    [goldmark.WithExtensions [goldmark.GFM];
     goldmark.WithRendererOptions [goldmark.WithHardWraps]].

Section Main.

(** The [const markDownStyleGithubCSS] of main.go:145-1276.  [main] never
    looks inside it, so the development takes it as it comes. *)
Variable markDownStyleGithubCSS : string.

Variable env : Env.

(** The flags, after [flag.Parse()]. *)
Variable inPath : string.
Variable previewOnly : bool.
Variable style : bool.

Definition os_Open (p : string) : Go (result Reader) :=
  emit (EvOpen p);;
  mret (match env_open env p with
        | Ok content => Ok (FileReader p content)
        | Err e => Err e
        end).

Definition io_ReadAll (r : Reader) : Go (result bytes) :=
  emit (EvReadAll r);;
  mret (match r with Stdin => env_stdin env | FileReader _ content => content end).

(** [os.MkdirTemp("", pattern)]: a new, empty directory under the name
    the system picked, or an error; a name already in use is an error. *)
Definition os_MkdirTemp (pattern : string) : Go (result string) :=
  emit (EvMkdirTemp pattern);;
  match env_mkdtemp env with
  | Err e => mret (Err e)
  | Ok d =>
      m ← get_fs;
      match m !! d with
      | Some _ => mret (Err "file exists")
      | None => set_fs (insert d ∅);; mret (Ok d)
      end
  end.

(** [os.Create(p)]: an empty file in an existing directory. *)
Definition os_Create (p : string) : Go (result Writer) :=
  emit (EvCreate p);;
  match env_create env with
  | Some e => mret (Err e)
  | None =>
      let '(d, n) := default (".", p) (path_Split p) in
      m ← get_fs;
      match m !! d with
      | Some _ => set_fs (alter (insert n []) d);; mret (Ok (FileWriter d n))
      | None => mret (Err "no such file or directory")
      end
  end.

(** [os.RemoveAll(p)]. *)
Definition os_RemoveAll (p : string) : Go (option error) :=
  emit (EvRemoveAll p);;
  match env_remove env with
  | Some e => mret (Some e)
  | None => set_fs (delete p);; mret None
  end.

(** [t.Execute(w, data)]. *)
Definition template_Execute (t : template.Template) (w : Writer)
    (data : template.Data) : Go (option error) :=
  emit (EvExecute w);;
  let '(out, e) := template.render (template.Tree t) data in
  r ← write_under (env_prefix env) w out;
  mret (match r with Some e' => Some e' | None => e end).

(** [md.Convert(src, w)]. *)
Definition Convert (md : goldmark.Markdown) (src : bytes) (w : Writer) : Go (option error) :=
  emit (EvConvert src w);;
  write_under (env_convert env) w (env_render env md src).

(** [io.Copy(w, buf)]. *)
Definition io_Copy (w : Writer) (buf : bytes) : Go (option error) :=
  emit (EvCopy w);;
  write_under (env_suffix env) w buf.

(** [exec.Command(name, arg).Run()]. *)
Definition Command_Run (name arg : string) : Go (option error) :=
  emit (EvCommandRun name arg);;
  mret (env_launch env).

Definition time_Sleep (d : Z) : Go unit := emit (EvSleep d).

(** The template text of main.go:99-107. *)
Definition htmlPrefixWithCSS_text : string :=
  "<html>
<head>
<style>
{{.CSS}}
</style>
</head>
<body>
<article class=" +:+ dq +:+ "markdown-body" +:+ dq +:+ ">
".

(** The closing tags of main.go:128-131. *)
Definition htmlSuffix : string :=
  "
</article>
</body>
</html>".

(** The body of a deferred call. *)
Definition call (d : Deferred) : Go unit :=
  match d with
  | DeferCloseReader f => emit (EvCloseReader f)
  | DeferRemoveAll tmpDir =>
      r ← os_RemoveAll tmpDir;
      match r with
      | Some err =>
          Fprintln_Stderr ("error removing temporary directory " +:+ tmpDir
                           +:+ ": " +:+ err)
      | None => mret ()
      end
  | DeferCloseWriter f => emit (EvCloseWriter f)
  | DeferPreview tmpOut =>
      v ← recover;
      match v with
      | Some _ => Fprintln_Stderr "Skip preview due to panic"
      | None =>
          r ← Command_Run "open" tmpOut;
          match r with
          | Some err => panic (Errorf LaunchError "" err)
          | None => time_Sleep (1 * Second)
          end
      end
  | DeferSuffix sink =>
      v ← recover;
      match v with
      | Some _ => mret ()
      | None =>
          r ← io_Copy sink (bytes_of htmlSuffix);
          match r with
          | Some err => panic (Errorf SuffixWriteError "" err)
          | None => mret ()
          end
      end
  end.

(** [func main()], up to its last statement. *)
Definition main : Go unit :=
  (* main.go:35-43 *)
  mdTxtReader ←
    (if bool_decide (inPath ≠ "" ∧ inPath ≠ "-") then
       r ← os_Open inPath;
       match r with
       | Err err => panic (Errorf InputOpenError inPath err)
       | Ok f => defer (DeferCloseReader f);; mret f
       end
     else mret Stdin);
  (* main.go:44-47; [md] of main.go:49-54 is the constant above *)
  r ← io_ReadAll mdTxtReader;
  mdTxt ← match r with
          | Err err => panic (Errorf InputReadError "" err)
          | Ok b => mret b
          end;
  (* main.go:56-94 *)
  sink ←
    (if previewOnly then
       r ← os_MkdirTemp "rmd";
       tmpDir ← match r with
                | Err err => panic (Errorf TempDirError "" err)
                | Ok d => mret d
                end;
       defer (DeferRemoveAll tmpDir);;
       let tmpOut := path_Join tmpDir "out.html" in
       r ← os_Create tmpOut;
       f ← match r with
           | Err err => panic (Errorf TempFileError "" err)
           | Ok f => mret f
           end;
       defer (DeferCloseWriter f);;
       defer (DeferPreview tmpOut);;
       mret f
     else mret Stdout);
  (* main.go:97-136 *)
  (if style then
     match template.Parse "htmlPrefixWithCSS" htmlPrefixWithCSS_text with
     | Err err => panic (Errorf TemplateError "" err)
     | Ok htmlPrefixWithCSS =>
         let data := {| template.data_CSS := template.mkCSS markDownStyleGithubCSS |} in
         r ← template_Execute htmlPrefixWithCSS sink data;
         match r with
         | Some err => panic (Errorf PrefixWriteError "" err)
         | None => defer (DeferSuffix sink)
         end
     end
   else mret ());;
  (* main.go:139-141 *)
  r ← Convert md mdTxt sink;
  match r with
  | Some err => panic (Errorf RenderError "" err)
  | None => mret ()
  end.

(** The deferred calls, last pushed first.  A call that panics leaves its
    panic in progress for the calls after it. *)
Fixpoint run_deferred (ds : list Deferred) (g : Goroutine) : Goroutine :=
  match ds with
  | [] => g
  | d :: ds' =>
      match call d g with
      | (Return _, g') => run_deferred ds' g'
      | (Panic v, g') =>
          run_deferred ds'
            {| world := world g'; deferred := deferred g'; panicking := Some v |}
      end
  end.

(** One run of the program, started on the file system [fs0]. *)
Definition run (fs0 : gmap string dirent) : Run :=
  let g0 := {| world := {| fs := fs0; stdout := []; stderr := []; log := [] |};
               deferred := []; panicking := None |} in
  let g1 := match main g0 with
            | (Return _, g) => g
            | (Panic v, g) =>
                {| world := world g; deferred := deferred g; panicking := Some v |}
            end in
  let g2 := run_deferred (deferred g1)
              {| world := world g1; deferred := []; panicking := panicking g1 |} in
  {| outcome := match panicking g2 with None => Exit | Some v => Crash v end;
     final := world g2 |}.

End Main.

(** ** Reading a log *)

(** The bytes the sink received: a run has one sink, so these are the
    bytes of every write, in order. *)
Fixpoint sink_bytes (l : list Event) : bytes :=
  match l with
  | [] => []
  | EvWrite _ data :: l' => data ++ sink_bytes l'
  | _ :: l' => sink_bytes l'
  end.

(** The panics raised, in order, recovered or not. *)
Fixpoint panics (l : list Event) : list PanicValue :=
  match l with
  | [] => []
  | EvPanic v :: l' => v :: panics l'
  | _ :: l' => panics l'
  end.

(** A run succeeds when no stage reported an error: no [panic] was reached
    and [main] returned. *)
Definition succeeds (r : Run) : Prop :=
  outcome r = Exit ∧ panics (log (final r)) = [].

(** Classifiers of events. *)
Definition is_open (e : Event) : bool :=
  match e with EvOpen _ => true | _ => false end.

Definition is_create (e : Event) : bool :=
  match e with EvMkdirTemp _ | EvCreate _ => true | _ => false end.

(** The three producers of output, in the order of the source. *)
Definition is_producer (e : Event) : bool :=
  match e with EvExecute _ | EvConvert _ _ | EvCopy _ => true | _ => false end.

(** Conversion work: a producer, or a write to the sink. *)
Definition is_conversion (e : Event) : bool :=
  match e with
  | EvExecute _ | EvConvert _ _ | EvCopy _ | EvWrite _ _ => true
  | _ => false
  end.

Definition is_template_error (v : PanicValue) : bool :=
  match stage v with TemplateError => true | _ => false end.

Definition is_launch (e : Event) : bool :=
  match e with EvCommandRun _ _ => true | _ => false end.

Definition is_sleep (e : Event) : bool :=
  match e with EvSleep _ => true | _ => false end.

Definition is_removal (e : Event) : bool :=
  match e with EvRemoveAll _ => true | _ => false end.

(** The events that follow the first one of a kind. *)
Fixpoint after (kind : Event → bool) (l : list Event) : list Event :=
  match l with
  | [] => []
  | e :: l' => if kind e then l' else after kind l'
  end.

(** [bytes.CutPrefix] and [bytes.CutSuffix]. *)
Fixpoint CutPrefix (s prefix : bytes) : option bytes :=
  match prefix, s with
  | [], _ => Some s
  | p :: prefix', c :: s' => if decide (p = c) then CutPrefix s' prefix' else None
  | _ :: _, [] => None
  end.

Definition CutSuffix (s suffix : bytes) : option bytes :=
  reverse <$> CutPrefix (reverse s) (reverse suffix).

(** The bytes of the preamble: the template of main.go:99-107 with the
    stylesheet in the place of its action. *)
Definition preamble (css : string) : bytes :=
  bytes_of "<html>
<head>
<style>
" ++ bytes_of css ++ bytes_of ("
</style>
</head>
<body>
<article class=" +:+ dq +:+ "markdown-body" +:+ dq +:+ ">
").

(** The bytes of the closing tags. *)
Definition closing : bytes := bytes_of htmlSuffix.

(** The nodes of the parsed preamble template. *)
Definition prefixTree : list template.Node :=
  [template.TextNode "<html>
<head>
<style>
";
   template.FieldNode "CSS";
   template.TextNode ("
</style>
</head>
<body>
<article class=" +:+ dq +:+ "markdown-body" +:+ dq +:+ ">
")].

(** ** Reasoning about statements: weakest preconditions

    [wp m Q g]: running [m] in [g] ends in a completion and a state that
    satisfy [Q].  The rules below walk through [main] in execution order,
    so that a proof splits on an answer of the environment only where the
    program asks for it. *)
Definition wp {A} (m : Go A) (Q : Completion A → Goroutine → Prop) (g : Goroutine) : Prop :=
  Q (m g).1 (m g).2.

(** The state the deferred calls start in, after the body of [main]. *)
Definition finish (c : Completion ()) (g : Goroutine) : Goroutine :=
  {| world := world g; deferred := [];
     panicking := match c with Return _ => panicking g | Panic v => Some v end |}.

Definition result_of (g : Goroutine) : Run :=
  {| outcome := match panicking g with None => Exit | Some v => Crash v end;
     final := world g |}.

Fixpoint wp_deferred (env : Env) (ds : list Deferred) (Q : Goroutine → Prop)
    (g : Goroutine) : Prop :=
  match ds with
  | [] => Q g
  | d :: ds' =>
      wp (call env d)
         (λ c g',
            wp_deferred env ds' Q
              {| world := world g'; deferred := deferred g';
                 panicking := match c with
                              | Return _ => panicking g'
                              | Panic v => Some v
                              end |}) g
  end.

(** ** Sample environments

    Concrete answers of the environment, for the runs the theorems are
    evaluated on. *)

Definition css_demo : string := ".markdown-body { margin: 0; }".

(** A stand-in for goldmark: one paragraph around the source. *)
Definition render_demo (m : goldmark.Markdown) (src : bytes) : bytes :=
  bytes_of "<p>" ++ src ++ bytes_of "</p>".

(** Every call succeeds. *)
Definition env_demo : Env := {|
  env_stdin   := Ok (bytes_of "hello");
  env_open    := λ p, if decide (p = "doc.md") then Ok (Ok (bytes_of "hello"))
                      else Err "no such file or directory";
  env_render  := render_demo;
  env_mkdtemp := Ok "/tmp/rmd42";
  env_create  := None;
  env_prefix  := None;
  env_convert := None;
  env_suffix  := None;
  env_launch  := None;
  env_remove  := None
|}.


Definition with_convert (f : fault) (env : Env) : Env := {|
  env_stdin := env_stdin env; env_open := env_open env; env_render := env_render env;
  env_mkdtemp := env_mkdtemp env; env_create := env_create env;
  env_prefix := env_prefix env; env_convert := f; env_suffix := env_suffix env;
  env_launch := env_launch env; env_remove := env_remove env |}.

Definition with_launch (o : option error) (env : Env) : Env := {|
  env_stdin := env_stdin env; env_open := env_open env; env_render := env_render env;
  env_mkdtemp := env_mkdtemp env; env_create := env_create env;
  env_prefix := env_prefix env; env_convert := env_convert env;
  env_suffix := env_suffix env; env_launch := o; env_remove := env_remove env |}.

Definition with_remove (o : option error) (env : Env) : Env := {|
  env_stdin := env_stdin env; env_open := env_open env; env_render := env_render env;
  env_mkdtemp := env_mkdtemp env; env_create := env_create env;
  env_prefix := env_prefix env; env_convert := env_convert env;
  env_suffix := env_suffix env; env_launch := env_launch env; env_remove := o |}.


(** No [open] command on this host. *)
Definition env_no_viewer : Env :=
  with_launch (Some "exec: open: executable file not found in $PATH") env_demo.

(** The directory cannot be deleted. *)
Definition env_busy : Env := with_remove (Some "device or resource busy") env_demo.

(** The sink takes the preamble and two more bytes, then is full. *)
Definition env_disk_full : Env :=
  with_convert (Some (2%nat, "no space left on device")) env_demo.

(** ** The earlier [main]

    [unnamed/part_000] is [main.go] before the style wrapper was added:
    the same pipeline with a single deferred call, the deletion of the
    temporary directory.  The viewer is launched from the body of [main],
    nothing calls [recover], and no file is closed. *)
Module part_000.

Section Main.

Variable env : Env.
Variable inPath : string.
Variable previewOnly : bool.

(** [func main()] of part_000, up to its last statement.  Its one deferred
    closure (part_000:61-65) has the text of main.go:65-69, so it is
    [DeferRemoveAll]. *)
Definition main : Go unit :=
  (* part_000:33-40 *)
  mdTxtReader ←
    (if bool_decide (inPath ≠ "" ∧ inPath ≠ "-") then
       r ← os_Open env inPath;
       match r with
       | Err err => panic (Errorf InputOpenError inPath err)
       | Ok f => mret f
       end
     else mret Stdin);
  (* part_000:41-44 *)
  r ← io_ReadAll env mdTxtReader;
  mdTxt ← match r with
          | Err err => panic (Errorf InputReadError "" err)
          | Ok b => mret b
          end;
  (* part_000:52-73: the sink and [tmpOut], which stays empty without -preview *)
  out ←
    (if previewOnly then
       r ← os_MkdirTemp env "rmd";
       tmpDir ← match r with
                | Err err => panic (Errorf TempDirError "" err)
                | Ok d => mret d
                end;
       defer (DeferRemoveAll tmpDir);;
       let tmpOut := path_Join tmpDir "out.html" in
       r ← os_Create env tmpOut;
       match r with
       | Err err => panic (Errorf TempFileError "" err)
       | Ok f => mret (f, tmpOut)
       end
     else mret (Stdout, ""));
  let '(sink, tmpOut) := out in
  (* part_000:75-77 *)
  r ← Convert env md mdTxt sink;
  match r with
  | Some err => panic (Errorf RenderError "" err)
  | None => mret ()
  end;;
  (* part_000:79-87 *)
  if previewOnly then
    r ← Command_Run env "open" tmpOut;
    match r with
    | Some err => panic (Errorf LaunchError "" err)
    | None => time_Sleep (1 * Second)
    end
  else mret ().

(** One run of that program, started on the file system [fs0]. *)
Definition run (fs0 : gmap string dirent) : Run :=
  let g0 := {| world := {| fs := fs0; stdout := []; stderr := []; log := [] |};
               deferred := []; panicking := None |} in
  let g1 := match main g0 with
            | (Return _, g) => g
            | (Panic v, g) =>
                {| world := world g; deferred := deferred g; panicking := Some v |}
            end in
  let g2 := run_deferred env (deferred g1)
              {| world := world g1; deferred := []; panicking := panicking g1 |} in
  {| outcome := match panicking g2 with None => Exit | Some v => Crash v end;
     final := world g2 |}.

End Main.

End part_000.

(** ** What a run is given and what it owes *)

(** The Markdown text of a run: what [io.ReadAll] returns for the stream
    the flag [-i] selects (main.go:35-47). *)
Definition input_of (env : Env) (inPath : string) : result bytes :=
  if bool_decide (inPath ≠ "" ∧ inPath ≠ "-") then
    match env_open env inPath with
    | Ok content => content
    | Err e => Err e
    end
  else env_stdin env.

(** The file [main] keeps open for reading, if any. *)
Definition opened (env : Env) (inPath : string) : option Reader :=
  if bool_decide (inPath ≠ "" ∧ inPath ≠ "-") then
    match env_open env inPath with
    | Ok content => Some (FileReader inPath content)
    | Err _ => None
    end
  else None.

(** The complete output for a converted body. *)
Definition document (css : string) (style : bool) (body : bytes) : bytes :=
  if style then preamble css ++ body ++ closing else body.

(** Whether a panic of a stage ends the process, under the two flags: the
    deferred preview call stops whatever is in progress when it starts,
    the deferred suffix call stops a failed conversion. *)
Definition fatal (previewOnly style : bool) (s : Stage) : bool :=
  match s with
  | InputOpenError | InputReadError | TempDirError | TempFileError | LaunchError => true
  | TemplateError | PrefixWriteError | SuffixWriteError => negb previewOnly
  | RenderError => negb previewOnly && negb style
  end.

(** No call the run makes fails; the deletion of the directory is left
    out, since its failure is only printed. *)
Definition no_failure (env : Env) (inPath : string) (previewOnly style : bool)
    (fs0 : gmap string dirent) : Prop :=
  (∃ src, input_of env inPath = Ok src) ∧
  (previewOnly = true →
     (∃ d, env_mkdtemp env = Ok d ∧ fs0 !! d = None) ∧
     env_create env = None ∧ env_launch env = None) ∧
  (style = true → env_prefix env = None ∧ env_suffix env = None) ∧
  env_convert env = None.

(** The line the deferred preview call prints when it stops a panic. *)
Definition skip_note : string := "Skip preview due to panic".


Definition is_close_reader (e : Event) : bool :=
  match e with EvCloseReader _ => true | _ => false end.

Definition is_close_writer (e : Event) : bool :=
  match e with EvCloseWriter _ => true | _ => false end.

Definition is_close (e : Event) : bool :=
  match e with EvCloseReader _ | EvCloseWriter _ => true | _ => false end.

(** The call behind an event, by the name it has in the source; writes,
    prints, panics and recoveries are not calls of their own. *)
Definition call_name (e : Event) : option string :=
  match e with
  | EvOpen _ => Some "os.Open"
  | EvReadAll _ => Some "io.ReadAll"
  | EvMkdirTemp _ => Some "os.MkdirTemp"
  | EvCreate _ => Some "os.Create"
  | EvExecute _ => Some "htmlPrefixWithCSS.Execute"
  | EvConvert _ _ => Some "md.Convert"
  | EvCopy _ => Some "io.Copy"
  | EvCommandRun _ _ => Some "exec.Command.Run"
  | EvSleep _ => Some "time.Sleep"
  | EvCloseWriter _ => Some "f.Close (sink)"
  | EvRemoveAll _ => Some "os.RemoveAll"
  | EvCloseReader _ => Some "f.Close (input)"
  | EvWrite _ _ | EvFprintln _ | EvPanic _ | EvRecover _ => None
  end.

Definition is_call (e : Event) : bool :=
  match call_name e with Some _ => true | None => false end.

(** The calls of [main] in the order a run reaches them: the body from
    top to bottom, then the deferred calls, last deferred first. *)
Definition call_order : list string :=
  ["os.Open"; "io.ReadAll"; "os.MkdirTemp"; "os.Create";
   "htmlPrefixWithCSS.Execute"; "md.Convert"; "io.Copy";
   "exec.Command.Run"; "time.Sleep"; "f.Close (sink)"; "os.RemoveAll";
   "f.Close (input)"].

(** ** Facts about the library models *)

Lemma path_Split_Join (d : string) :
  path_Split (path_Join d "out.html") = Some (d, "out.html").
Proof.
  unfold path_Join. induction d as [|c d IH]; [reflexivity|].
  change (String c d +:+ "/" +:+ "out.html") with (String c (d +:+ "/" +:+ "out.html")).
  cbn [path_Split]. now rewrite IH.
Qed.

(** The template of [main] parses, into text, the [CSS] field, text. *)
Lemma Parse_htmlPrefixWithCSS :
  template.Parse "htmlPrefixWithCSS" htmlPrefixWithCSS_text =
  Ok {| template.Name := "htmlPrefixWithCSS"; template.Tree := prefixTree |}.
Proof. vm_compute. reflexivity. Qed.

(** Executing it writes the preamble and cannot fail on its own. *)
Lemma render_prefixTree (css : string) :
  template.render prefixTree {| template.data_CSS := template.mkCSS css |} =
  (preamble css, None).
Proof. unfold preamble. cbn. now rewrite app_nil_r. Qed.

Lemma md_HardWraps : goldmark.HardWraps md = true.
Proof. reflexivity. Qed.

Lemma md_extensions : goldmark.extensions md = [goldmark.GFM].
Proof. reflexivity. Qed.

Lemma CutPrefix_app (p s : bytes) : CutPrefix (p ++ s) p = Some s.
Proof.
  induction p as [|c p IH]; [now destruct s|].
  cbn. now rewrite decide_True.
Qed.

Lemma CutSuffix_app (s x : bytes) : CutSuffix (s ++ x) x = Some s.
Proof.
  unfold CutSuffix. rewrite reverse_app, CutPrefix_app. cbn.
  now rewrite reverse_involutive.
Qed.

(** The two failing sites of the sink selector print the same text. *)
Lemma TempFileError_text (e : error) :
  Error (Errorf TempFileError "" e) = Error (Errorf TempDirError "" e).
Proof. reflexivity. Qed.

(** ** Rules of the weakest precondition *)

Lemma wp_bind {A B} (m : Go A) (k : A → Go B) Q g :
  wp m (λ c g', match c with
                | Return a => wp (k a) Q g'
                | Panic v => Q (Panic v) g'
                end) g →
  wp (m ≫= k) Q g.
Proof.
  unfold wp, mbind, Go_bind. destruct (m g) as [[a|v] g']; cbn; auto.
Qed.

Lemma wp_deferred_sound env ds Q g :
  wp_deferred env ds Q g → Q (run_deferred env ds g).
Proof.
  revert g. induction ds as [|d ds IH]; intros g; cbn; [auto|].
  unfold wp. destruct (call env d g) as [[[]|v] g']; cbn; intros H; apply IH in H; auto.
  now destruct g'.
Qed.

(** A property of a run follows from walking through [main] and then
    through the calls it deferred. *)
Lemma run_wp css env inPath previewOnly style (P : Run → Prop) fs0 :
  wp (main css env inPath previewOnly style)
     (λ c g, wp_deferred env (deferred g) (λ g2, P (result_of g2)) (finish c g))
     {| world := {| fs := fs0; stdout := []; stderr := []; log := [] |};
        deferred := []; panicking := None |} →
  P (run css env inPath previewOnly style fs0).
Proof.
  unfold wp, run, finish.
  destruct (main _ _ _ _ _ _) as [[[]|v] g]; cbn; intros H;
    now apply wp_deferred_sound in H.
Qed.

(** *** Walking through a run *)

Ltac head_stuck t :=
  lazymatch t with
  | match ?x with _ => _ end => head_stuck x
  | _ => t
  end.

Ltac env_cbn :=
  cbn [env_stdin env_open env_render env_mkdtemp env_create env_prefix env_convert
       env_suffix env_launch env_remove template.Tree template.Name].

(** Run the primitive at the head on its state. *)
Ltac wp_leaf :=
  lazymatch goal with
  | |- wp ?m ?Q ?g =>
      let r := eval cbv beta iota zeta delta
                 [emit with_world set_fs get_fs defer recover panic mret Go_ret
                  world deferred panicking fs stdout stderr log] in (m g) in
      lazymatch r with
      | (?c, ?g') => change (Q c g'); cbv beta match; cbn [app]
      end
  end.

(** Split on what the program is waiting for. *)
Ltac wp_case x :=
  let y := head_stuck x in
  lazymatch y with
  | from_option _ _ (path_Split (path_Join _ _)) =>
      rewrite path_Split_Join; cbn [from_option id]
  | <[?k:=_]> _ !! ?k => rewrite lookup_insert_eq
  | template.Parse _ _ => rewrite Parse_htmlPrefixWithCSS
  | template.render _ _ => rewrite render_prefixTree
  | bool_decide ?P =>
      first
        [ rewrite (bool_decide_eq_true_2 P) by assumption
        | rewrite (bool_decide_eq_false_2 P) by assumption
        | case_bool_decide ]
  | _ =>
      first
        [ progress cbv beta match
        | match goal with H : y = _ |- _ => rewrite H end
        | destruct y eqn:? ]
  end.

Ltac wp_step :=
  env_cbn;
  lazymatch goal with
  | |- wp (@mbind _ _ _ _ _ _) _ _ => apply wp_bind
  | |- wp (mret _) _ _ => wp_leaf
  | |- wp (panic _) _ _ => wp_leaf
  | |- wp (emit _) _ _ => wp_leaf
  | |- wp (set_fs _) _ _ => wp_leaf
  | |- wp get_fs _ _ => wp_leaf
  | |- wp (defer _) _ _ => wp_leaf
  | |- wp recover _ _ => wp_leaf
  | |- wp (with_world _) _ _ => wp_leaf
  | |- wp (match ?x with _ => _ end) _ _ => wp_case x
  | |- wp (write _ _) _ _ => unfold write at 1
  | |- wp (write_under _ _ _) _ _ => unfold write_under at 1
  | |- wp (Fprintln_Stderr _) _ _ => unfold Fprintln_Stderr at 1
  | |- wp (os_Open _ _) _ _ => unfold os_Open at 1
  | |- wp (io_ReadAll _ _) _ _ => unfold io_ReadAll at 1
  | |- wp (os_MkdirTemp _ _) _ _ => unfold os_MkdirTemp at 1
  | |- wp (os_Create _ _) _ _ => unfold os_Create at 1
  | |- wp (os_RemoveAll _ _) _ _ => unfold os_RemoveAll at 1
  | |- wp (template_Execute _ _ _ _) _ _ => unfold template_Execute at 1
  | |- wp (Convert _ _ _ _) _ _ => unfold Convert at 1
  | |- wp (io_Copy _ _ _) _ _ => unfold io_Copy at 1
  | |- wp (Command_Run _ _ _) _ _ => unfold Command_Run at 1
  | |- wp (time_Sleep _) _ _ => unfold time_Sleep at 1
  | |- wp (call _ _) _ _ => unfold call at 1
  | |- wp (main _ _ _ _ _) _ _ => unfold main at 1
  | |- wp_deferred _ _ _ _ =>
      cbv beta iota zeta delta [wp_deferred finish deferred world panicking]
  end.

(** Case analysis of a membership in an explicit list. *)
Ltac inv_elem :=
  repeat match goal with
    | H : _ ∈ [] |- _ => exfalso; exact (proj1 (elem_of_nil _) H)
    | H : _ ∈ _ :: _ |- _ =>
        apply elem_of_cons in H; destruct H as [?|?]
    end.

(** A membership in an explicit list. *)
Ltac elem_solve :=
  solve [ repeat first [ apply list_elem_of_here | apply list_elem_of_further ] ].

(** Bring the temporary directory of a leaf to a normal form. *)
Ltac fs_norm :=
  rewrite ?alter_insert_eq, ?insert_empty, ?delete_insert_eq, ?app_nil_r, <- ?app_assoc;
  cbn [app].

(** Turn a goal about [run ...] into its leaves: one goal per path through
    the program, each about an explicit outcome and final world.  The
    property is kept folded while the program is walked through. *)
Ltac wp_run :=
  lazymatch goal with
  | |- context [run ?css ?env ?i ?p ?s ?fs0] =>
      pattern (run css env i p s fs0);
      lazymatch goal with
      | |- ?P _ =>
          let PP := fresh "PP" in
          set (PP := P); apply run_wp; repeat wp_step;
          subst PP; cbv beta; subst; env_cbn;
          cbn [result_of outcome final panicking world fs stdout stderr log];
          repeat match goal with H : _ = _ |- _ => progress rewrite H end
      end
  end.

(** ** Walking through a run of part_000 *)

Lemma run_wp_part_000 env inPath previewOnly (P : Run → Prop) fs0 :
  wp (part_000.main env inPath previewOnly)
     (λ c g, wp_deferred env (deferred g) (λ g2, P (result_of g2)) (finish c g))
     {| world := {| fs := fs0; stdout := []; stderr := []; log := [] |};
        deferred := []; panicking := None |} →
  P (part_000.run env inPath previewOnly fs0).
Proof.
  unfold wp, part_000.run, finish.
  destruct (part_000.main _ _ _ _) as [[[]|v] g]; cbn; intros H;
    now apply wp_deferred_sound in H.
Qed.

(** The constant at the head of an application. *)
Ltac head_of t :=
  lazymatch t with
  | ?f _ => head_of f
  | _ => t
  end.

(** One step through a body [wp_step] has no rule for: unfold it. *)
Ltac wp_step_any :=
  first
    [ wp_step
    | lazymatch goal with
      | |- wp ?m _ _ => let h := head_of m in unfold h at 1
      end ].

(** [wp_run] for the run [r] of such a body, whose rule is [rule]. *)
Ltac wp_run_by r rule :=
  pattern r;
  lazymatch goal with
  | |- ?P _ =>
      let PP := fresh "PP" in
      set (PP := P); apply rule; repeat wp_step_any;
      subst PP; cbv beta; subst; env_cbn;
      cbn [result_of outcome final panicking world fs stdout stderr log];
      repeat match goal with H : _ = _ |- _ => progress rewrite H end
  end.

(** ** Prefixes of a document, by its parts *)

Lemma prefix_take_app {A} (n : nat) (a b : list A) : take n a `prefix_of` a ++ b.
Proof. apply prefix_app_r, prefix_take. Qed.

(** ** The style wrapper *)

(** C1.  For every input on which the run succeeds, the bytes the sink
    receives with [-style], once the fixed preamble is cut from their front
    and the fixed closing tags from their end, are the bytes the sink
    receives for the same input without [-style].  The two runs are two
    processes: they agree on the input and on the converter, nothing else. *)
Theorem style_wraps_the_plain_output css env1 env0 inPath previewOnly fs1 fs0 :
  env_stdin env1 = env_stdin env0 →
  env_open env1 inPath = env_open env0 inPath →
  env_render env1 = env_render env0 →
  let styled := run css env1 inPath previewOnly true fs1 in
  let plain := run css env0 inPath previewOnly false fs0 in
  succeeds styled → succeeds plain →
  CutPrefix (sink_bytes (log (final styled))) (preamble css)
    ≫= (λ rest, CutSuffix rest closing)
  = Some (sink_bytes (log (final plain))).
Proof.
  destruct env1 as [sin1 op1 ren1 mk1 cr1 pf1 cf1 sf1 la1 rm1].
  destruct env0 as [sin0 op0 ren0 mk0 cr0 pf0 cf0 sf0 la0 rm0].
  cbn [env_stdin env_open env_render]. intros -> Hop ->. cbv zeta. unfold succeeds.
  wp_run.
  all: cbn [panics]; intros [_ ?]; try discriminate.
  all: wp_run.
  all: cbn [panics]; intros [_ ?]; try discriminate.
  all: cbn [sink_bytes]; rewrite !app_nil_r, CutPrefix_app; cbn [mbind option_bind];
    rewrite CutSuffix_app; congruence.
Qed.

Lemma style_wraps_the_plain_output_witness :
  CutPrefix (sink_bytes (log (final (run css_demo env_demo "-" false true ∅))))
            (preamble css_demo)
    ≫= (λ rest, CutSuffix rest closing)
  = Some (sink_bytes (log (final (run css_demo env_demo "-" false false ∅)))).
Proof.
  apply (style_wraps_the_plain_output css_demo env_demo env_demo "-" false ∅ ∅);
    try reflexivity; vm_compute; split; reflexivity.
Defined.

(** C2.  A run with [-style] that succeeds sends the sink three parts, in
    this order: the preamble (the opening tags with the stylesheet between
    the style tags), the converted body of the input, the closing tags.
    Without [-preview] the sink is standard output. *)
Theorem styled_output_has_three_parts css env inPath previewOnly fs0 :
  let r := run css env inPath previewOnly true fs0 in
  let l := log (final r) in
  succeeds r →
  ∃ src sink,
    (env_stdin env = Ok src ∨ env_open env inPath = Ok (Ok src)) ∧
    List.filter is_producer l = [EvExecute sink; EvConvert src sink; EvCopy sink] ∧
    sink_bytes l = preamble css ++ env_render env md src ++ closing ∧
    (previewOnly = false → sink = Stdout ∧ stdout (final r) = sink_bytes l).
Proof.
  destruct env as [sin op ren mk cr pf cf sf la rm]. cbv zeta. unfold succeeds.
  wp_run.
  all: cbn [panics]; intros [_ ?]; try discriminate.
  all: eexists _, _;
    cbn [List.filter is_producer sink_bytes env_stdin env_open env_render];
    rewrite ?app_nil_r;
    (split; [first [left; reflexivity | right; reflexivity]|]);
    repeat apply conj; first [reflexivity | discriminate | by rewrite <- app_assoc].
Qed.

Lemma styled_output_has_three_parts_witness :
  List.filter is_producer (log (final (run css_demo env_demo "-" false true ∅)))
    = [EvExecute Stdout; EvConvert (bytes_of "hello") Stdout; EvCopy Stdout] ∧
  stdout (final (run css_demo env_demo "-" false true ∅))
    = preamble css_demo ++ bytes_of "<p>hello</p>" ++ closing.
Proof.
  assert (Hok : succeeds (run css_demo env_demo "-" false true ∅)).
  { vm_compute. split; reflexivity. }
  destruct (styled_output_has_three_parts css_demo env_demo "-" false ∅ Hok)
    as (src & sink & Hsrc & Hl & Hb & Hout).
  destruct (Hout eq_refl) as [-> ->].
  destruct Hsrc as [Hsrc | Hsrc]; [|discriminate Hsrc].
  injection Hsrc as <-. exact (conj Hl Hb).
Defined.

(** ** The input resolver *)

(** C4.  With the empty path or the sentinel [-] the run starts by reading
    standard input to its end and opens nothing; with any other path it
    starts by opening that file, and a file that cannot be opened ends the
    run there with [InputOpenError].  A failed read of either stream ends
    the run with [InputReadError] before any conversion work, and what is
    converted after a successful read is the whole content of the stream. *)
Theorem input_resolution css env inPath previewOnly style fs0 :
  let r := run css env inPath previewOnly style fs0 in
  let l := log (final r) in
  ((inPath = "" ∨ inPath = "-") →
     head l = Some (EvReadAll Stdin) ∧ List.filter is_open l = [] ∧
     (∀ e, env_stdin env = Err e →
        outcome r = Crash (Errorf InputReadError "" e) ∧
        List.filter is_conversion l = []) ∧
     (∀ b, env_stdin env = Ok b → ∀ src w, EvConvert src w ∈ l → src = b)) ∧
  (inPath ≠ "" → inPath ≠ "-" →
     head l = Some (EvOpen inPath) ∧
     (∀ e, env_open env inPath = Err e →
        outcome r = Crash (Errorf InputOpenError inPath e) ∧
        l = [EvOpen inPath; EvPanic (Errorf InputOpenError inPath e)]) ∧
     (∀ c, env_open env inPath = Ok c →
        l !! 1%nat = Some (EvReadAll (FileReader inPath c)) ∧
        (∀ e, c = Err e →
           outcome r = Crash (Errorf InputReadError "" e) ∧
           List.filter is_conversion l = []) ∧
        (∀ b, c = Ok b → ∀ src w, EvConvert src w ∈ l → src = b))).
Proof.
  destruct env as [sin op ren mk cr pf cf sf la rm]. cbv zeta.
  wp_run.
  all: (split; [intros [-> | ->] | intros ? ?]); try tauto.
  all: repeat split; intros; simplify_eq; try reflexivity.
  all: inv_elem; congruence.
Qed.

Lemma input_resolution_witness :
  (head (log (final (run css_demo env_demo "-" false false ∅)))
     = Some (EvReadAll Stdin) ∧
   List.filter is_open (log (final (run css_demo env_demo "-" false false ∅))) = []) ∧
  head (log (final (run css_demo env_demo "doc.md" false false ∅)))
    = Some (EvOpen "doc.md").
Proof.
  split.
  - destruct (input_resolution css_demo env_demo "-" false false ∅) as [H _].
    destruct (H (or_intror eq_refl)) as (H1 & H2 & _). exact (conj H1 H2).
  - destruct (input_resolution css_demo env_demo "doc.md" false false ∅) as [_ H].
    apply H; discriminate.
Defined.

(** ** The sink selector *)




(** ** The preview launcher *)

(** C6, as the claim has it, fails when the launch fails: the deferred
    call panics at once, no delay is taken, and the directory is deleted
    right after the output file is closed. *)
Lemma no_delay_after_a_failed_launch :
  log (final (run css_demo env_no_viewer "-" true false ∅)) =
    [EvReadAll Stdin; EvMkdirTemp "rmd"; EvCreate "/tmp/rmd42/out.html";
     EvConvert (bytes_of "hello") (FileWriter "/tmp/rmd42" "out.html");
     EvWrite (FileWriter "/tmp/rmd42" "out.html") (bytes_of "<p>hello</p>");
     EvCommandRun "open" "/tmp/rmd42/out.html";
     EvPanic (Errorf LaunchError "" "exec: open: executable file not found in $PATH");
     EvCloseWriter (FileWriter "/tmp/rmd42" "out.html");
     EvRemoveAll "/tmp/rmd42"] ∧
  List.filter is_sleep (log (final (run css_demo env_no_viewer "-" true false ∅))) = [].
Proof. vm_compute. split; reflexivity. Qed.

(** C6, amended.  In a preview run that attempts the launch, the command
    is [open] on the output file.  When the launch succeeds the next thing
    the process does is to sleep one second, once, and the directory is
    deleted after that; when the launch fails the process panics instead,
    sleeps at no point, and still deletes the directory. *)
Theorem delay_follows_a_successful_launch css env inPath style fs0 p :
  let l := log (final (run css env inPath true style fs0)) in
  EvCommandRun "open" p ∈ l →
  ∃ d, env_mkdtemp env = Ok d ∧ p = path_Join d "out.html" ∧
    (env_launch env = None →
       ∃ rest, after is_launch l = EvSleep (1 * Second) :: rest ∧
               List.filter is_sleep rest = [] ∧
               EvRemoveAll d ∈ rest) ∧
    (∀ e, env_launch env = Some e →
       List.filter is_sleep l = [] ∧
       ∃ rest, after is_launch l = EvPanic (Errorf LaunchError "" e) :: rest ∧
               EvRemoveAll d ∈ rest).
Proof.
  destruct env as [sin op ren mk cr pf cf sf la rm]. cbv zeta.
  wp_run.
  all: intros ?; inv_elem; try discriminate.
  all: match goal with H : EvCommandRun _ _ = _ |- _ => injection H as -> end.
  all: eexists; split; [reflexivity|]; split; [reflexivity|]; split; intros;
    try discriminate;
    try match goal with H : Some _ = Some _ |- _ => injection H as -> end.
  all: repeat first [ split | reflexivity | eexists ]; elem_solve.
Qed.

Lemma delay_follows_a_successful_launch_witness :
  ∃ rest,
    after is_launch (log (final (run css_demo env_demo "-" true true ∅)))
      = EvSleep (1 * Second) :: rest ∧
    EvRemoveAll "/tmp/rmd42" ∈ rest.
Proof.
  assert (Hin : EvCommandRun "open" "/tmp/rmd42/out.html" ∈
                log (final (run css_demo env_demo "-" true true ∅))).
  { vm_compute. elem_solve. }
  destruct (delay_follows_a_successful_launch css_demo env_demo "-" true ∅ _ Hin)
    as (d & Hd & _ & Hok & _).
  injection Hd as <-.
  destruct (Hok eq_refl) as (rest & Hafter & _ & Hrm).
  exists rest. exact (conj Hafter Hrm).
Defined.

(** C7, as the claim has it, fails when the deletion itself fails: the
    run below completes normally, the deletion is attempted and reported,
    and the directory is still there, with the output file in it. *)
Lemma directory_survives_a_failed_deletion :
  outcome (run css_demo env_busy "-" true false ∅) = Exit ∧
  List.filter is_removal (log (final (run css_demo env_busy "-" true false ∅)))
    = [EvRemoveAll "/tmp/rmd42"] ∧
  stderr (final (run css_demo env_busy "-" true false ∅))
    = ["error removing temporary directory /tmp/rmd42: device or resource busy"] ∧
  fs (final (run css_demo env_busy "-" true false ∅)) !! "/tmp/rmd42"
    = Some {["out.html" := bytes_of "<p>hello</p>"]}.
Proof. vm_compute. repeat apply conj; reflexivity. Qed.

(** C7, amended.  Once a preview run has made its temporary directory,
    the deletion of that directory is attempted exactly once on every
    exit path (the statement holds for every answer of the environment:
    normal completion, a failed render, a failed file creation, a failed
    launch), and no conversion work follows it.  When the deletion
    succeeds the file system is what it was before the run, so the
    directory no longer exists; when it fails the directory is left behind
    and the failure is printed to standard error. *)
Theorem cleanup_on_every_exit_path css env inPath style fs0 d :
  let r := run css env inPath true style fs0 in
  let l := log (final r) in
  EvMkdirTemp "rmd" ∈ l → env_mkdtemp env = Ok d → fs0 !! d = None →
  List.filter is_removal l = [EvRemoveAll d] ∧
  List.filter is_conversion (after is_removal l) = [] ∧
  (env_remove env = None → fs (final r) !! d = None ∧ fs (final r) = fs0) ∧
  (∀ e, env_remove env = Some e →
     is_Some (fs (final r) !! d) ∧
     "error removing temporary directory " +:+ d +:+ ": " +:+ e ∈ stderr (final r)).
Proof.
  destruct env as [sin op ren mk cr pf cf sf la rm]. cbv zeta.
  wp_run.
  all: cbn [env_mkdtemp env_remove]; intros ?; inv_elem; try discriminate.
  all: intros ? ?; simplify_eq.
  all: split; [reflexivity|]; split; [reflexivity|]; split; intros; simplify_eq.
  all: try (split; [apply lookup_delete_eq|]; fs_norm; by apply delete_id).
  all: split; [fs_norm; rewrite lookup_insert_eq; eauto | elem_solve].
Qed.

Lemma cleanup_on_every_exit_path_witness :
  List.filter is_removal (log (final (run css_demo env_no_viewer "-" true true ∅)))
    = [EvRemoveAll "/tmp/rmd42"] ∧
  fs (final (run css_demo env_no_viewer "-" true true ∅)) = ∅.
Proof.
  assert (Hin : EvMkdirTemp "rmd" ∈
                log (final (run css_demo env_no_viewer "-" true true ∅))).
  { vm_compute. elem_solve. }
  destruct (cleanup_on_every_exit_path css_demo env_no_viewer "-" true ∅ "/tmp/rmd42"
              Hin eq_refl eq_refl) as (H1 & _ & H2 & _).
  exact (conj H1 (proj2 (H2 eq_refl))).
Defined.

(** ** Errors that do not end the run *)

(** C8: the claim holds for the deletion, not for "the only kind".  In
    preview mode a failed render is not fatal either: the deferred preview
    call recovers the panic, prints a note, and [main] returns, so the
    process exits with status 0. *)
Theorem render_failure_is_not_fatal_in_preview :
  panics (log (final (run css_demo env_disk_full "-" true false ∅)))
    = [Errorf RenderError "" "no space left on device"] ∧
  outcome (run css_demo env_disk_full "-" true false ∅) = Exit ∧
  exit_status (outcome (run css_demo env_disk_full "-" true false ∅)) = 0%Z ∧
  stderr (final (run css_demo env_disk_full "-" true false ∅))
    = ["Skip preview due to panic"].
Proof. vm_compute. repeat apply conj; reflexivity. Qed.

(** X1, the part of C8 that holds: whether the deletion fails or not, the
    process ends the same way, and a failed deletion that was attempted is
    printed to standard error. *)
Lemma cleanup_failure_is_not_fatal css env inPath previewOnly style fs0 e :
  let r := run css (with_remove (Some e) env) inPath previewOnly style fs0 in
  outcome r = outcome (run css (with_remove None env) inPath previewOnly style fs0) ∧
  ∀ d, EvRemoveAll d ∈ log (final r) →
       "error removing temporary directory " +:+ d +:+ ": " +:+ e ∈ stderr (final r).
Proof.
  destruct env as [sin op ren mk cr pf cf sf la rm]. unfold with_remove. env_cbn. cbv zeta.
  wp_run.
  all: wp_run.
  all: split; [reflexivity|]; intros; inv_elem; try discriminate; simplify_eq; elem_solve.
Qed.

(** ** The preamble template *)

(** C9.  The template text of [main] is a fixed literal that parses, so the
    branch that panics with [TemplateError] is dead: whatever the
    environment answers, no run with [-style] raises that panic. *)
Theorem template_never_fails css env inPath previewOnly fs0 :
  (∃ t, template.Parse "htmlPrefixWithCSS" htmlPrefixWithCSS_text = Ok t) ∧
  List.filter is_template_error
    (panics (log (final (run css env inPath previewOnly true fs0)))) = [].
Proof.
  split; [eexists; apply Parse_htmlPrefixWithCSS|].
  destruct env as [sin op ren mk cr pf cf sf la rm].
  wp_run.
  all: reflexivity.
Qed.

(** ** A failed conversion under [-style] *)

(** C10: the closing tags are indeed never written, but the run does not
    abort.  The deferred call that would write them recovers the panic of
    the failed conversion and returns, so [main] returns and the process
    exits with status 0, with a truncated document in the sink and
    nothing on standard error. *)
Theorem render_failure_is_swallowed_with_style :
  stdout (final (run css_demo env_disk_full "-" false true ∅))
    = preamble css_demo ++ bytes_of "<p" ∧
  panics (log (final (run css_demo env_disk_full "-" false true ∅)))
    = [Errorf RenderError "" "no space left on device"] ∧
  outcome (run css_demo env_disk_full "-" false true ∅) = Exit ∧
  exit_status (outcome (run css_demo env_disk_full "-" false true ∅)) = 0%Z ∧
  stderr (final (run css_demo env_disk_full "-" false true ∅)) = [].
Proof. vm_compute. repeat apply conj; reflexivity. Qed.

(** X2, the part of C10 that holds, for every run: when the conversion fails
    after the preamble was written, the sink holds the preamble and the
    part of the body that got through, the closing tags are not written,
    and the first panic is the one of the conversion.  Without [-preview]
    that panic is recovered and the process exits normally, whatever the
    input. *)
Lemma no_closing_tags_after_a_failed_conversion css env inPath previewOnly fs0 n e :
  let r := run css env inPath previewOnly true fs0 in
  let l := log (final r) in
  env_convert env = Some (n, e) →
  ∀ src w, EvConvert src w ∈ l →
    sink_bytes l = preamble css ++ take n (env_render env md src) ∧
    List.filter is_producer l = [EvExecute w; EvConvert src w] ∧
    head (panics l) = Some (Errorf RenderError "" e) ∧
    (previewOnly = false → outcome r = Exit ∧ stderr (final r) = []).
Proof.
  destruct env as [sin op ren mk cr pf cf sf la rm]. cbv zeta.
  wp_run.
  all: cbn [env_convert env_render]; intros; simplify_eq; inv_elem; try discriminate.
  all: simplify_eq; cbn [sink_bytes]; rewrite ?app_nil_r; repeat split;
    first [reflexivity | discriminate].
Qed.

Lemma no_closing_tags_after_a_failed_conversion_witness :
  sink_bytes (log (final (run css_demo env_disk_full "-" false true ∅)))
    = preamble css_demo ++ take 2 (bytes_of "<p>hello</p>") ∧
  outcome (run css_demo env_disk_full "-" false true ∅) = Exit.
Proof.
  assert (Hin : EvConvert (bytes_of "hello") Stdout ∈
                log (final (run css_demo env_disk_full "-" false true ∅))).
  { vm_compute. elem_solve. }
  destruct (no_closing_tags_after_a_failed_conversion css_demo env_disk_full "-" false ∅
              2 "no space left on device" eq_refl _ _ Hin) as (Hb & _ & _ & Hout).
  exact (conj Hb (proj1 (Hout eq_refl))).
Defined.

(** ** Effects and the flags *)


(** X4.  With [-preview] nothing is written to standard output, whatever
    happens, and the one place of the file system a run can change is the
    directory under the name [os.MkdirTemp] picked: every other path
    holds after the run what it held before. *)
Theorem preview_is_confined css env inPath style fs0 :
  let r := run css env inPath true style fs0 in
  stdout (final r) = [] ∧
  (∀ w data, EvWrite w data ∈ log (final r) → w ≠ Stdout) ∧
  ∀ p, env_mkdtemp env ≠ Ok p → fs (final r) !! p = fs0 !! p.
Proof.
  destruct env as [sin op ren mk cr pf cf sf la rm]. cbv zeta.
  wp_run.
  all: split; [reflexivity|]; split; [intros; inv_elem; congruence|].
  all: intros p Hp; try reflexivity.
  all: fs_norm;
    rewrite ?lookup_delete_ne, ?lookup_alter_ne, ?lookup_insert_ne by congruence;
    reflexivity.
Qed.

(** ** The output *)

(** X5.  Whatever fails, the bytes the sink has received at the end of a
    run are a prefix of the complete output for the input: of the
    converted body, or with [-style] of the preamble, the body and the
    closing tags.  They are the complete output when no stage panicked,
    and nothing at all when the input could not be read. *)
Theorem output_is_a_prefix_of_the_document css env inPath previewOnly style fs0 :
  let l := log (final (run css env inPath previewOnly style fs0)) in
  match input_of env inPath with
  | Ok src =>
      sink_bytes l `prefix_of` document css style (env_render env md src) ∧
      (panics l = [] → sink_bytes l = document css style (env_render env md src))
  | Err _ => sink_bytes l = []
  end.
Proof.
  destruct env as [sin op ren mk cr pf cf sf la rm]. cbv zeta.
  wp_run.
  all: unfold input_of, document; env_cbn;
    first [ rewrite bool_decide_eq_true_2 by assumption
          | rewrite bool_decide_eq_false_2 by assumption ];
    repeat match goal with H : _ = _ |- _ => progress rewrite H end;
    cbn [sink_bytes panics]; rewrite ?app_nil_r.
  all: try reflexivity.
  all: split; [|intros; first [discriminate | reflexivity]].
  all: solve [ repeat first
                 [ reflexivity | apply prefix_nil | apply prefix_take
                 | apply prefix_take_app | apply prefix_app ] ].
Qed.

Lemma output_is_a_prefix_of_the_document_witness :
  sink_bytes (log (final (run css_demo env_demo "doc.md" false true ∅)))
    = preamble css_demo ++ bytes_of "<p>hello</p>" ++ closing.
Proof.
  apply (output_is_a_prefix_of_the_document css_demo env_demo "doc.md" false true ∅).
  vm_compute. reflexivity.
Defined.

(** ** How the process ends *)

(** X6.  The process ends on the last panic raised, if that panic is
    fatal under the flags, and returns from [main] otherwise.  An input,
    directory, file or launch error is always fatal; a failed write of
    the preamble or of the closing tags is fatal only without [-preview];
    a failed conversion is fatal only when neither flag is set. *)
Theorem outcome_by_last_panic css env inPath previewOnly style fs0 :
  let r := run css env inPath previewOnly style fs0 in
  outcome r = match last (panics (log (final r))) with
              | Some v => if fatal previewOnly style (stage v) then Crash v else Exit
              | None => Exit
              end.
Proof.
  destruct env as [sin op ren mk cr pf cf sf la rm]. cbv zeta.
  wp_run.
  all: reflexivity.
Qed.

(** X7.  A run succeeds (no panic is raised and [main] returns) exactly
    when no call it makes fails: the input is read, with [-preview] the
    directory is new, the file is created and the viewer starts, with
    [-style] the preamble and the closing tags are written, and the
    conversion goes through.  Whether the directory can be deleted has no
    part in it. *)
Theorem success_iff_no_failure css env inPath previewOnly style fs0 :
  succeeds (run css env inPath previewOnly style fs0) ↔
  no_failure env inPath previewOnly style fs0.
Proof.
  destruct env as [sin op ren mk cr pf cf sf la rm].
  unfold succeeds, no_failure.
  wp_run.
  all: unfold input_of; env_cbn;
    first [ rewrite bool_decide_eq_true_2 by assumption
          | rewrite bool_decide_eq_false_2 by assumption ];
    repeat match goal with H : _ = _ |- _ => progress rewrite H end;
    cbn [panics].
  all: split;
    [ intros [? ?]; try discriminate
    | intros ((src & ?) & Hp & Hs & ?); try discriminate;
      try (destruct (Hp eq_refl) as ((d' & ? & ?) & ? & ?); simplify_eq);
      try (destruct (Hs eq_refl) as (? & ?); simplify_eq) ].
  all: try (split; reflexivity).
  all: repeat split; eauto; try discriminate.
Qed.

Lemma success_iff_no_failure_witness :
  succeeds (run css_demo env_demo "doc.md" true true ∅).
Proof.
  apply (success_iff_no_failure css_demo env_demo "doc.md" true true ∅).
  repeat split; try reflexivity.
  - exists (bytes_of "hello"). reflexivity.
  - exists "/tmp/rmd42". split; reflexivity.
Defined.



(** ** Files *)

(** X9.  Every file the run opens or creates is closed once, after its
    last use.  The input file, when one was opened, is closed by the last
    call of the process, also when reading it failed; standard input is
    never closed.  The output file of a preview run is closed after the
    last write and after the viewer was launched, and the next call
    deletes its directory. *)
Theorem files_are_closed_once css env inPath previewOnly style fs0 :
  let l := log (final (run css env inPath previewOnly style fs0)) in
  match opened env inPath with
  | Some f =>
      List.filter is_close_reader l = [EvCloseReader f] ∧
      last l = Some (EvCloseReader f)
  | None => List.filter is_close_reader l = []
  end ∧
  (∀ p, EvCreate p ∈ l → env_create env = None →
     ∃ d, env_mkdtemp env = Ok d ∧ p = path_Join d "out.html" ∧
       List.filter is_close_writer l = [EvCloseWriter (FileWriter d "out.html")] ∧
       List.filter is_conversion (after is_close_writer l) = [] ∧
       List.filter is_launch (after is_close_writer l) = [] ∧
       head (after is_close_writer l) = Some (EvRemoveAll d)) ∧
  (List.filter is_create l = [] → List.filter is_close_writer l = []).
Proof.
  destruct env as [sin op ren mk cr pf cf sf la rm]. cbv zeta.
  wp_run.
  all: unfold opened; env_cbn;
    first [ rewrite bool_decide_eq_true_2 by assumption
          | rewrite bool_decide_eq_false_2 by assumption ];
    repeat match goal with H : _ = _ |- _ => progress rewrite H end.
  all: split; [first [reflexivity | split; reflexivity]|].
  all: split; [|first [reflexivity | discriminate]].
  all: intros p ? ?; inv_elem; simplify_eq.
  all: eexists; repeat split.
Qed.

Lemma files_are_closed_once_witness :
  last (log (final (run css_demo env_demo "doc.md" true true ∅)))
    = Some (EvCloseReader (FileReader "doc.md" (Ok (bytes_of "hello")))) ∧
  head (after is_close_writer (log (final (run css_demo env_demo "doc.md" true true ∅))))
    = Some (EvRemoveAll "/tmp/rmd42").
Proof.
  destruct (files_are_closed_once css_demo env_demo "doc.md" true true ∅) as (Hr & Hw & _).
  split; [exact (proj2 Hr)|].
  assert (Hin : EvCreate "/tmp/rmd42/out.html" ∈
                log (final (run css_demo env_demo "doc.md" true true ∅))).
  { vm_compute. elem_solve. }
  destruct (Hw _ Hin eq_refl) as (d & Hd & _ & _ & _ & _ & Hh).
  injection Hd as <-. exact Hh.
Defined.

(** ** The viewer *)

(** X10.  In a preview run that created its output file, the deferred
    preview call does one of two things: it launches the viewer on that
    file, once, or it finds a panic in progress, stops it, prints
    "Skip preview due to panic" and lets [main] return.  A failed
    conversion is such a panic without [-style]; with [-style] the
    deferred suffix call has stopped it before, so the viewer is launched
    on the document the failed conversion left.  Nothing is written to
    the file once the viewer was launched. *)
Theorem viewer_is_launched_or_skipped css env inPath style fs0 p :
  let r := run css env inPath true style fs0 in
  let l := log (final r) in
  EvCreate p ∈ l → env_create env = None →
  (List.filter is_launch l = [EvCommandRun "open" p] ∧ skip_note ∉ stderr (final r) ∨
   List.filter is_launch l = [] ∧ skip_note ∈ stderr (final r) ∧ outcome r = Exit) ∧
  List.filter is_conversion (after is_launch l) = [] ∧
  (∀ src w, EvConvert src w ∈ l → is_Some (env_convert env) →
     if style then List.filter is_launch l = [EvCommandRun "open" p]
     else List.filter is_launch l = []).
Proof.
  destruct env as [sin op ren mk cr pf cf sf la rm]. cbv zeta.
  wp_run.
  all: cbn [env_create env_convert]; intros ? ?; inv_elem; simplify_eq.
  all: split;
    [ first
        [ left; split; [reflexivity|];
          unfold skip_note; intros ?; inv_elem; simplify_eq; discriminate
        | right; split; [reflexivity|]; split; [elem_solve | reflexivity] ]
    | split; [reflexivity|]; intros ? ? ? Hc; inv_elem; simplify_eq;
      first [ reflexivity | destruct Hc; discriminate ] ].
Qed.

Lemma viewer_is_launched_or_skipped_witness :
  List.filter is_launch (log (final (run css_demo env_disk_full "-" true true ∅)))
    = [EvCommandRun "open" "/tmp/rmd42/out.html"] ∧
  List.filter is_launch (log (final (run css_demo env_disk_full "-" true false ∅))) = [].
Proof.
  split.
  - assert (Hin : EvCreate "/tmp/rmd42/out.html" ∈
                  log (final (run css_demo env_disk_full "-" true true ∅))).
    { vm_compute. elem_solve. }
    destruct (viewer_is_launched_or_skipped css_demo env_disk_full "-" true ∅ _ Hin eq_refl)
      as (_ & _ & H).
    apply (H (bytes_of "hello") (FileWriter "/tmp/rmd42" "out.html")).
    + vm_compute. elem_solve.
    + eexists. reflexivity.
  - assert (Hin : EvCreate "/tmp/rmd42/out.html" ∈
                  log (final (run css_demo env_disk_full "-" true false ∅))).
    { vm_compute. elem_solve. }
    destruct (viewer_is_launched_or_skipped css_demo env_disk_full "-" false ∅ _ Hin eq_refl)
      as (_ & _ & H).
    apply (H (bytes_of "hello") (FileWriter "/tmp/rmd42" "out.html")).
    + vm_compute. elem_solve.
    + eexists. reflexivity.
Defined.

(** ** No call is repeated *)

(** X11.  The calls a run makes to the operating system and to the
    libraries follow one fixed order, each made at most once: what the
    log holds is a subsequence of [call_order].  Nothing is retried, and
    a deferred call never runs before the body of [main] is over. *)
Theorem calls_follow_the_program_order css env inPath previewOnly style fs0 :
  omap call_name (log (final (run css env inPath previewOnly style fs0)))
    `sublist_of` call_order.
Proof.
  destruct env as [sin op ren mk cr pf cf sf la rm].
  wp_run.
  all: cbn [omap list_omap call_name]; unfold call_order.
  all: solve [ repeat first
                 [ apply sublist_nil | apply sublist_skip | apply sublist_cons ] ].
Qed.

(** ** Diagnostics *)

(** X12.  What the program itself prints to standard error is at most two
    lines, in this order: the note of a skipped preview, and the report
    of a deletion that failed, which names the directory and the cause. *)
Theorem standard_error_lines css env inPath previewOnly style fs0 :
  let r := run css env inPath previewOnly style fs0 in
  ∃ skipped removed,
    stderr (final r) = skipped ++ removed ∧
    (skipped = [] ∨ skipped = [skip_note] ∧ previewOnly = true) ∧
    (removed = [] ∨
     ∃ d e, env_mkdtemp env = Ok d ∧ env_remove env = Some e ∧
       removed = ["error removing temporary directory " +:+ d +:+ ": " +:+ e]).
Proof.
  destruct env as [sin op ren mk cr pf cf sf la rm]. cbv zeta.
  wp_run.
  all: first
    [ exists [], []; split; [reflexivity|]; split; left; reflexivity
    | exists [skip_note], []; split; [reflexivity|]; split;
        [right; split; reflexivity | left; reflexivity]
    | eexists [], _; split; [reflexivity|]; split;
        [left; reflexivity
        | right; eexists _, _; split; [reflexivity|]; split; reflexivity]
    | eexists [skip_note], _; split; [reflexivity|]; split;
        [right; split; reflexivity
        | right; eexists _, _; split; [reflexivity|]; split; reflexivity] ].
Qed.

(** X13.  The text of a panic tells the stage that failed, with one
    exception: a failed [os.Create] (main.go:73) is reported with the
    words of a failed [os.MkdirTemp] (main.go:62), so the two cannot be
    told apart. *)
Theorem diagnostics_name_the_stage v1 v2 :
  Error v1 = Error v2 →
  stage v1 = stage v2 ∨
  (stage v1 = TempDirError ∧ stage v2 = TempFileError) ∨
  (stage v1 = TempFileError ∧ stage v2 = TempDirError).
Proof.
  destruct v1 as [s1 x1 c1], v2 as [s2 x2 c2].
  destruct s1, s2; cbn; intros H; try discriminate H; auto.
Qed.

Lemma diagnostics_name_the_stage_witness :
  stage (Errorf TempFileError "" "too many open files")
    = stage (Errorf TempDirError "" "too many open files") ∨
  (stage (Errorf TempFileError "" "too many open files") = TempDirError ∧
   stage (Errorf TempDirError "" "too many open files") = TempFileError) ∨
  (stage (Errorf TempFileError "" "too many open files") = TempFileError ∧
   stage (Errorf TempDirError "" "too many open files") = TempDirError).
Proof.
  apply (diagnostics_name_the_stage (Errorf TempFileError "" "too many open files")
           (Errorf TempDirError "" "too many open files")).
  reflexivity.
Defined.

(** ** The earlier [main], and what changed since *)

(** X14.  In part_000 nothing stops a panic: a run raises at most one, and
    the process ends on it.  The viewer is launched only after a
    conversion that went through, and the delay follows the launch.  No
    file is ever closed, and without [-preview] nothing is deferred. *)
Theorem part_000_every_failure_is_fatal env inPath previewOnly fs0 :
  let r := part_000.run env inPath previewOnly fs0 in
  let l := log (final r) in
  (length (panics l) ≤ 1)%nat ∧
  outcome r = match panics l with [] => Exit | v :: _ => Crash v end ∧
  List.filter is_close l = [] ∧
  (∀ name p, EvCommandRun name p ∈ l →
     env_convert env = None ∧
     List.filter is_conversion (after is_launch l) = [] ∧
     (env_launch env = None → head (after is_launch l) = Some (EvSleep (1 * Second)))).
Proof.
  destruct env as [sin op ren mk cr pf cf sf la rm]. cbv zeta.
  lazymatch goal with
  | |- context [part_000.run ?e ?i ?p ?f] =>
      wp_run_by (part_000.run e i p f) run_wp_part_000
  end.
  all: cbn [panics length env_convert env_launch]; repeat apply conj;
    try reflexivity; try lia.
  all: intros; inv_elem; simplify_eq; repeat apply conj;
    first [ reflexivity | discriminate | intros; first [reflexivity | discriminate] ].
Qed.

Lemma part_000_every_failure_is_fatal_witness :
  outcome (part_000.run env_disk_full "-" true ∅)
    = Crash (Errorf RenderError "" "no space left on device") ∧
  List.filter is_launch (log (final (part_000.run env_disk_full "-" true ∅))) = [].
Proof.
  destruct (part_000_every_failure_is_fatal env_disk_full "-" true ∅) as (_ & H & _).
  split; [exact H|]. vm_compute. reflexivity.
Defined.

(** X15.  What the deferred calls of [main.go] changed.  Without [-style]
    the two versions give, for the same answers of the environment, the
    same standard output, the same file system and the same bytes to the
    sink, in every run, and they make the same calls with the same
    arguments in the same order, apart from the files [main.go] closes.  They end the process the same way but in one
    case: a conversion that fails under [-preview] ends part_000 with the
    render error, while [main.go] stops that panic in its deferred
    preview call and returns. *)
Theorem deferred_calls_preserve_the_output css env inPath previewOnly fs0 :
  let old := part_000.run env inPath previewOnly fs0 in
  let new := run css env inPath previewOnly false fs0 in
  stdout (final new) = stdout (final old) ∧
  fs (final new) = fs (final old) ∧
  sink_bytes (log (final new)) = sink_bytes (log (final old)) ∧
  List.filter (λ e, is_call e && negb (is_close e)) (log (final new))
    = List.filter is_call (log (final old)) ∧
  (outcome new = outcome old ∨
   previewOnly = true ∧ outcome new = Exit ∧
   ∃ e, outcome old = Crash (Errorf RenderError "" e)).
Proof.
  destruct env as [sin op ren mk cr pf cf sf la rm]. cbv zeta.
  lazymatch goal with
  | |- context [part_000.run ?e ?i ?p ?f] =>
      wp_run_by (part_000.run e i p f) run_wp_part_000
  end.
  all: wp_run.
  all: repeat apply conj; try reflexivity.
  all: first [ left; reflexivity | right; repeat split; eauto ].
Qed.

(** ** The source of the input *)

(** X16.  Where the input came from makes no difference: two runs that
    read the same Markdown text, one from standard input and one from a
    file, or from two files, and get the same answers otherwise end the
    same way, with the same bytes in the sink, the same standard streams
    and the same file system. *)
Theorem input_source_is_irrelevant css env i1 i2 previewOnly style fs0 src :
  let r1 := run css env i1 previewOnly style fs0 in
  let r2 := run css env i2 previewOnly style fs0 in
  input_of env i1 = Ok src → input_of env i2 = Ok src →
  outcome r1 = outcome r2 ∧
  sink_bytes (log (final r1)) = sink_bytes (log (final r2)) ∧
  stdout (final r1) = stdout (final r2) ∧
  stderr (final r1) = stderr (final r2) ∧
  fs (final r1) = fs (final r2).
Proof.
  destruct env as [sin op ren mk cr pf cf sf la rm]. cbv zeta.
  wp_run.
  all: wp_run.
  all: unfold input_of; env_cbn;
    repeat first [ rewrite bool_decide_eq_true_2 by assumption
                 | rewrite bool_decide_eq_false_2 by assumption ];
    repeat match goal with H : _ = _ |- _ => progress rewrite H end.
  all: intros ? ?; simplify_eq.
  all: repeat apply conj; reflexivity.
Qed.

Lemma input_source_is_irrelevant_witness :
  outcome (run css_demo env_demo "-" true true ∅)
    = outcome (run css_demo env_demo "doc.md" true true ∅) ∧
  sink_bytes (log (final (run css_demo env_demo "-" true true ∅)))
    = sink_bytes (log (final (run css_demo env_demo "doc.md" true true ∅))).
Proof.
  destruct (input_source_is_irrelevant css_demo env_demo "-" "doc.md" true true ∅
              (bytes_of "hello") eq_refl eq_refl) as (H1 & H2 & _).
  exact (conj H1 H2).
Defined.
